(** * Attendance management backend: a shallow embedding of [server.js]

    The development follows the layout of the server:
    - JavaScript values as they travel through request bodies and sheet rows;
    - the platform the server runs on (JSON, jsonwebtoken, the clock's
      locale, the sheet's cell rendering), as an interface with its laws;
    - the three in-memory mirrors ([employees], [attendanceData],
      [leaveData]) and the spreadsheet store;
    - the loaders, the auth gate and the route handlers;
    - the properties of the cache-consistency contract and of the gate.

    Conventions.  A mirror is a JavaScript object used as a dictionary: it is
    modelled by a finite map over its own string keys (what an object
    inherits from [Object.prototype] is not part of the model).  An identifier
    or a date of a request body is the string used as property key; a
    password is a string or absent.  Every handler that awaits the store
    takes the outcome of the call ([true]: the call returns, [false]: it
    rejects) as an argument, since the store is an external collaborator that
    may fail at any time; the clock readings a handler takes are arguments
    as well. *)

From Stdlib Require Import ZArith String Ascii List.
From stdpp Require Import base option list gmap strings pretty.

Set Warnings "-register-all".

Open Scope string_scope.
Open Scope list_scope.
Open Scope Z_scope.

(** ** JavaScript values *)

(** JSON values extended with [undefined].  A number is kept as the decimal
    [m * 10^e] it was written as. *)
Inductive jsval : Type :=
| JUndefined
| JNull
| JBool (b : bool)
| JNum (m e : Z)
| JStr (s : string)
| JArr (xs : list jsval)
| JObj (fields : list (string * jsval)).

(** A decimal that rounds to the double zero: it is zero, or it lies at or
    below half of the smallest subnormal, [2^-1075]. *)
Definition rounds_to_zero (m e : Z) : bool :=
  (m =? 0) || ((e <? 0) && (Z.abs m * 2 ^ 1075 <=? 10 ^ (- e))).

(** ToBoolean. *)
Definition truthy (v : jsval) : bool :=
  match v with
  | JUndefined | JNull => false
  | JBool b => b
  | JNum m e => negb (rounds_to_zero m e)
  | JStr s => negb (String.eqb s "")
  | JArr _ | JObj _ => true
  end.

(** [a || b] on values. *)
Definition js_or (a b : jsval) : jsval := if truthy a then a else b.

(** Own-property lookup in a property list. *)
Fixpoint assoc_get (k : string) (fields : list (string * jsval)) : option jsval :=
  match fields with
  | [] => None
  | (k', v) :: rest => if String.eqb k k' then Some v else assoc_get k rest
  end.

(** [v.k] for a key [k] that no prototype defines: [None] is the TypeError
    raised on [null] and [undefined]. *)
Definition get_member (v : jsval) (k : string) : option jsval :=
  match v with
  | JUndefined | JNull => None
  | JObj fields => Some (default JUndefined (assoc_get k fields))
  | _ => Some JUndefined
  end.

(** A cell that may be missing from its row, as a value. *)
Definition of_cell (c : option string) : jsval :=
  match c with Some s => JStr s | None => JUndefined end.

(** ToPropertyKey of a cell: a missing cell indexes the key "undefined". *)
Definition prop_key (c : option string) : string := default "undefined" c.

(** ToBoolean of a cell. *)
Definition cell_truthy (c : option string) : bool := truthy (of_cell c).

(** [c === 'true'] on a cell. *)
Definition is_true_cell (c : option string) : bool :=
  match c with Some s => String.eqb s "true" | None => false end.

(** *** Numbers used as leave identifiers *)

(** The numbers [parseInt] and [Date.now] produce; integers are kept exact. *)
Inductive jsnum : Type :=
| NaN
| Int (z : Z).



Definition digit_value (c : ascii) : option Z :=
  let n := Z.of_N (N_of_ascii c) in
  if (48 <=? n) && (n <=? 57) then Some (n - 48)
  else if (97 <=? n) && (n <=? 122) then Some (n - 87)
  else if (65 <=? n) && (n <=? 90) then Some (n - 55)
  else None.



(** [n.toString()]. *)
Definition num_toString (n : jsnum) : string :=
  match n with
  | NaN => "NaN"
  | Int z => pretty z
  end.


(** *** Strings *)

(** The double quote and the backslash. *)
Definition dquote : ascii := ascii_of_N 34.
Definition backslash : ascii := ascii_of_N 92.

Fixpoint string_drop (n : nat) (s : string) : string :=
  match n, s with
  | S n', String _ rest => string_drop n' rest
  | _, _ => s
  end.

(** A text in which every apostrophe stands for a double quote. *)
Fixpoint dq (s : string) : string :=
  match s with
  | String c rest => String (if Ascii.eqb c "'" then dquote else c) (dq rest)
  | EmptyString => EmptyString
  end.

(** [s.replace(pat, rep)] for a string pattern: the first occurrence only. *)
Fixpoint replace_first (pat rep s : string) : string :=
  if String.prefix pat s then (rep ++ string_drop (String.length pat) s)%string
  else match s with
       | String c rest => String c (replace_first pat rep rest)
       | EmptyString => EmptyString
       end.

(** ** Exceptions over mutable state *)

(** A computation over a mutable state [S]: it ends with a value or with a
    thrown exception ([None]); the mutations made before a throw remain. *)
Definition Eff (S A : Type) : Type := S -> option A * S.

Definition eff_ret {S A} (a : A) : Eff S A := fun s => (Some a, s).

Definition eff_bind {S A B} (c : Eff S A) (k : A -> Eff S B) : Eff S B :=
  fun s => match c s with
           | (Some a, s') => k a s'
           | (None, s') => (None, s')
           end.

Definition throw {S A} : Eff S A := fun s => (None, s).

Definition modify {S} (f : S -> S) : Eff S unit := fun s => (Some tt, f s).

(** A partial result, raising when it is absent. *)
Definition or_throw {S A} (o : option A) : Eff S A :=
  match o with Some a => eff_ret a | None => throw end.

(** [try { c } catch (error) { h }]. *)
Definition try_catch {S A} (c h : Eff S A) : Eff S A :=
  fun s => match c s with
           | (Some a, s') => (Some a, s')
           | (None, s') => h s'
           end.

Notation "x <~ c ;; k" := (eff_bind c (fun x => k))
  (at level 100, c at next level, right associativity).
Notation "c ;;; k" := (eff_bind c (fun _ => k))
  (at level 100, right associativity).

(** [l.forEach(f)]: an exception thrown by [f] ends the iteration. *)
Fixpoint forEach {S A} (f : A -> Eff S unit) (l : list A) : Eff S unit :=
  match l with
  | [] => eff_ret tt
  | x :: rest => f x ;;; forEach f rest
  end.

(** [l.findIndex(p)]; [None] stands for -1. *)
Fixpoint findIndex {A} (p : A -> bool) (l : list A) : option nat :=
  match l with
  | [] => None
  | x :: rest => if p x then Some O else S <$> findIndex p rest
  end.

(** ** The platform *)

(** The payload the server puts in a session token. *)
Record claims : Type := Claims { userId : string; isAdmin : bool }.

(** What the server uses of Node, of jsonwebtoken and of the spreadsheet
    service.  Times are [Date.now()] readings in milliseconds; a validity
    window is in seconds. *)
Class Platform : Type := {
  (** [JSON.parse]; [None] is the SyntaxError. *)
  JSON_parse : string -> option jsval;
  (** [JSON.stringify]; the result is a string or [undefined]. *)
  JSON_stringify : jsval -> jsval;
  (** [jwt.sign(payload, secret, { expiresIn })] at a given time. *)
  jwt_sign : claims -> string -> Z -> Z -> string;
  (** [jwt.verify(token, secret)] at a given time; [None] is the error
      thrown on a bad signature or an expired token. *)
  jwt_verify : string -> string -> Z -> option claims;
  (** [new Date(t).toLocaleDateString()]. *)
  toLocaleDateString : Z -> string;
  (** The text a range read returns for a value written RAW. *)
  cell_text : jsval -> string
}.

(** What the properties below rely on: the empty object parses, and a token
    verifies to its payload, with the key it was signed with, until the
    second it expires at and not after. *)
Class PlatformLaws (P : Platform) : Prop := {
  JSON_parse_empty_object : JSON_parse "{}" = Some (JObj []);
  jwt_verify_sign : forall p k ttl t t',
    t' / 1000 < t / 1000 + ttl -> jwt_verify (jwt_sign p k ttl t) k t' = Some p;
  jwt_verify_expired : forall p k ttl t t',
    t / 1000 + ttl <= t' / 1000 -> jwt_verify (jwt_sign p k ttl t) k t' = None
}.

(** ** Data model *)

Record employee : Type := Employee {
  emp_name : option string;
  emp_password : option string;
  emp_isAdmin : bool
}.

Record leave : Type := Leave {
  leave_id : jsnum;
  leave_type : jsval;
  fromDate : jsval;
  toDate : jsval;
  reason : jsval;
  leave_status : jsval;
  appliedOn : jsval;
  employeeId : jsval
}.

(** [leave.status = status]. *)
Definition with_status (status : jsval) (l : leave) : leave :=
  Leave (leave_id l) (leave_type l) (fromDate l) (toDate l) (reason l)
        status (appliedOn l) (employeeId l).

(** The three mirrors.  An attendance record is the object literal the code
    builds, kept as a value. *)
Record mirror : Type := Mirror {
  employees : gmap string employee;
  attendanceData : gmap string (gmap string jsval);
  leaveData : gmap string (list leave)
}.

Definition empty_mirror : mirror := Mirror ∅ ∅ ∅.

Definition set_employees (f : gmap string employee -> gmap string employee)
    (m : mirror) : mirror :=
  Mirror (f (employees m)) (attendanceData m) (leaveData m).

Definition set_attendanceData
    (f : gmap string (gmap string jsval) -> gmap string (gmap string jsval))
    (m : mirror) : mirror :=
  Mirror (employees m) (f (attendanceData m)) (leaveData m).

Definition set_leaveData
    (f : gmap string (list leave) -> gmap string (list leave))
    (m : mirror) : mirror :=
  Mirror (employees m) (attendanceData m) (f (leaveData m)).

(** [if (!attendanceData[empId]) attendanceData[empId] = {}]. *)
Definition ensure_days (empId : string)
    (a : gmap string (gmap string jsval)) : gmap string (gmap string jsval) :=
  match a !! empId with
  | Some _ => a
  | None => <[empId := ∅]> a
  end.

(** [attendanceData[empId][date] = record], once the entry exists. *)
Definition set_day (empId date : string) (record : jsval)
    (a : gmap string (gmap string jsval)) : gmap string (gmap string jsval) :=
  <[empId := <[date := record]> (default ∅ (a !! empId))]> a.


(** ** The spreadsheet store *)

(** A row as a range read returns it: the texts of its cells, by position.
    A read of a whole-column range ([A:H]) returns the rows from the first row
    of the sheet on, so the row at index [i] of the list is row [i + 1] of the
    sheet. *)
Definition row : Type := list string.

Record sheets : Type := Sheets {
  sheet_Employees : list row;
  sheet_Attendance : list row;
  sheet_Leave : list row
}.

(** [response.data.values]: absent when the range holds no data. *)
Definition sheet_values (rows : list row) : option (list row) :=
  match rows with
  | [] => None
  | _ => Some rows
  end.

(** A range read: [None] when the call rejects. *)
Definition values_get (ok : bool) (rows : list row) : option (option (list row)) :=
  if ok then Some (sheet_values rows) else None.

(** Writing [text] in the cell at 0-based column [col] of the row numbered
    [number] (from 1, as in A1 notation); the sheet grows when needed. *)
Definition write_cell (col number : nat) (text : string) (rows : list row) : list row :=
  let i := pred number in
  let rows' := rows ++ replicate (S i - length rows) [] in
  alter (fun r => <[col := text]> (r ++ replicate (S col - length r) "")) i rows'.

Definition column_F : nat := 5.

(** The process: its mirrors and the store behind them. *)
Record world : Type := World { mem : mirror; store : sheets }.

(** ** Responses *)

Inductive body : Type :=
| BJson (v : jsval)
| BDays (days : gmap string jsval)
| BLeaves (ls : list leave)
| BAllAttendance (a : gmap string (gmap string jsval))
| BAllLeave (d : gmap string (list leave)).

Record response : Type := Response { status : Z; payload : body }.

Definition success : response :=
  Response 200 (BJson (JObj [("success", JBool true)])).

Definition failure (code : Z) (message : string) : response :=
  Response code (BJson (JObj [("success", JBool false); ("message", JStr message)])).

Definition refusal (code : Z) (message : string) : response :=
  Response code (BJson (JObj [("message", JStr message)])).

(** ** The server *)

Record attendance_body : Type := AttendanceBody {
  att_empId : string;
  att_date : string;
  att_checkIn : jsval;
  att_checkOut : jsval;
  att_location : jsval;
  att_isLate : jsval;
  att_isHalfDay : jsval
}.

Record leave_body : Type := LeaveBody {
  lv_empId : string;
  lv_type : jsval;
  lv_fromDate : jsval;
  lv_toDate : jsval;
  lv_reason : jsval
}.

(** What the admin guard does with a request: answer it, or pass it on with
    the decoded identity attached. *)
Inductive gate : Type :=
| Rejected (r : response)
| Next (user : claims).

Section Server.

Context `{Platform}.

(** [process.env.JWT_SECRET]. *)
Variable JWT_SECRET : string.

(** *** Loading the mirrors *)

(** The callback of [employeesSheet.forEach]. *)
Definition employee_row (r : row) : Eff mirror unit :=
  if cell_truthy (r !! 0%nat) && cell_truthy (r !! 1%nat)
  then modify (set_employees
         <[prop_key (r !! 0%nat) :=
             Employee (r !! 1%nat) (r !! 2%nat) (is_true_cell (r !! 3%nat))]>)
  else eff_ret tt.

Definition loadEmployeesFromSheets (ok : bool) (st : sheets) : Eff mirror unit :=
  try_catch
    (values <~ or_throw (values_get ok (sheet_Employees st)) ;;
     forEach employee_row (default [] values))
    (eff_ret tt).

(** [row[4] || '{}']. *)
Definition location_text (c : option string) : string :=
  if cell_truthy c then prop_key c else "{}".

(** The callback of [rows.forEach] in the attendance loader. *)
Definition attendance_row (r : row) : Eff mirror unit :=
  let empId := r !! 0%nat in
  let date := r !! 1%nat in
  let checkIn := r !! 2%nat in
  let checkOut := r !! 3%nat in
  location <~ or_throw (JSON_parse (location_text (r !! 4%nat))) ;;
  let isLate := is_true_cell (r !! 5%nat) in
  let isHalfDay := is_true_cell (r !! 6%nat) in
  modify (set_attendanceData (ensure_days (prop_key empId))) ;;;
  checkInLocation <~ or_throw (get_member location "checkIn") ;;
  checkOutLocation <~ or_throw (get_member location "checkOut") ;;
  modify (set_attendanceData (set_day (prop_key empId) (prop_key date)
    (JObj [("checkIn", of_cell checkIn);
           ("checkOut", of_cell checkOut);
           ("checkInLocation", js_or checkInLocation (JObj []));
           ("checkOutLocation", js_or checkOutLocation (JObj []));
           ("isLate", JBool isLate);
           ("isHalfDay", JBool isHalfDay);
           ("date", of_cell date)]))).

Definition loadAttendanceFromSheets (ok : bool) (st : sheets) : Eff mirror unit :=
  try_catch
    (values <~ or_throw (values_get ok (sheet_Attendance st)) ;;
     forEach attendance_row (default [] values))
    (eff_ret tt).




(** *** The auth gate *)

(** [POST /api/login]; [now] is the clock reading when the token is signed. *)
Definition login (id : string) (password : option string) (now : Z)
    (w : world) : response * world :=
  match employees (mem w) !! id with
  | Some e =>
      if decide (emp_password e = password)
      then (Response 200 (BJson (JObj
             [("success", JBool true);
              ("name", of_cell (emp_name e));
              ("token", JStr (jwt_sign (Claims id (emp_isAdmin e)) JWT_SECRET 3600 now))])),
            w)
      else (failure 401 "Invalid credentials", w)
  | None => (failure 401 "Invalid credentials", w)
  end.

(** The token a response carries, if any. *)
Definition token_of (r : response) : option string :=
  match payload r with
  | BJson (JObj fields) =>
      match assoc_get "token" fields with
      | Some (JStr t) => Some t
      | _ => None
      end
  | _ => None
  end.

(** [req.header('Authorization')?.replace('Bearer ', '')]. *)
Definition bearer_token (authorization : option string) : option string :=
  replace_first "Bearer " "" <$> authorization.

(** The middleware [verifyAdmin], on the Authorization header of the request. *)
Definition verifyAdmin (authorization : option string) (now : Z) : gate :=
  let token := bearer_token authorization in
  if negb (cell_truthy token) then Rejected (refusal 401 "Access denied")
  else
    match jwt_verify (prop_key token) JWT_SECRET now with
    | Some decoded =>
        if negb (isAdmin decoded) then Rejected (refusal 403 "Admin access required")
        else Next decoded
    | None => Rejected (refusal 401 "Invalid token")
    end.

(** A route registered as [app.METHOD(path, verifyAdmin, handler)]. *)
Definition guarded (authorization : option string) (now : Z)
    (handler : world -> response * world) (w : world) : response * world :=
  match verifyAdmin authorization now with
  | Rejected r => (r, w)
  | Next _ => handler w
  end.

(** *** Attendance *)


(** The record [POST /api/attendance] stores in the mirror. *)
Definition attendance_record (b : attendance_body) : jsval :=
  JObj [("checkIn", att_checkIn b);
        ("checkOut", att_checkOut b);
        ("location", att_location b);
        ("isLate", att_isLate b);
        ("isHalfDay", att_isHalfDay b);
        ("date", JStr (att_date b))].



(** [sheets.spreadsheets.values.append]: [None] when the call rejects. *)
Definition values_append (ok : bool) (values : list jsval) (rows : list row)
    : option (list row) :=
  if ok then Some (rows ++ [cell_text <$> values]) else None.




(** *** Leave *)


(** The leave [POST /api/leave] builds; [now] is the reading of [Date.now()]
    and [today] the one of [new Date()]. *)
Definition new_leave (b : leave_body) (now today : Z) : leave :=
  Leave (Int now) (lv_type b) (lv_fromDate b) (lv_toDate b) (lv_reason b)
        (JStr "Pending") (JStr (toLocaleDateString today)) (JStr (lv_empId b)).




(** [l.id.toString() === leaveId]. *)
Definition has_id (leaveId : string) (l : leave) : bool :=
  String.eqb (num_toString (leave_id l)) leaveId.

(** [row[0] === empId && row[1] === leaveId]. *)
Definition row_matches (empId leaveId : string) (r : row) : bool :=
  bool_decide (r !! 0%nat = Some empId) && bool_decide (r !! 1%nat = Some leaveId).

(** The store part of the status update: [ok_get] and [ok_update] are the
    outcomes of the range read and of the cell update. *)
Definition patch_status (empId leaveId : string) (status : jsval)
    (ok_get ok_update : bool) (st : sheets) : response * sheets :=
  match values_get ok_get (sheet_Leave st) with
  | Some (Some rows) =>
      match findIndex (row_matches empId leaveId) rows with
      | Some rowIndex =>
          if ok_update
          then (success,
                Sheets (sheet_Employees st) (sheet_Attendance st)
                  (write_cell column_F (rowIndex + 2) (cell_text status)
                     (sheet_Leave st)))
          else (failure 500 "Failed to update leave status", st)
      | None => (success, st)
      end
  | _ => (failure 500 "Failed to update leave status", st)
  end.

(** The handler of [PUT /api/leave/:empId/:leaveId]. *)
Definition put_leave_status (empId leaveId : string) (status : jsval)
    (ok_get ok_update : bool) (w : world) : response * world :=
  match leaveData (mem w) !! empId with
  | None => (refusal 404 "Leave not found", w)
  | Some leaveList =>
      match findIndex (has_id leaveId) leaveList with
      | None => (refusal 404 "Leave not found", w)
      | Some i =>
          let m := set_leaveData
                     <[empId := alter (with_status status) i leaveList]> (mem w) in
          let '(r, st) := patch_status empId leaveId status ok_get ok_update (store w) in
          (r, World m st)
      end
  end.

(** *** Administration *)

(** The handler of [GET /api/admin/attendance]. *)
Definition admin_attendance (w : world) : response * world :=
  (Response 200 (BAllAttendance (attendanceData (mem w))), w).

(** The handler of [GET /api/admin/leave]. *)
Definition admin_leave (w : world) : response * world :=
  (Response 200 (BAllLeave (leaveData (mem w))), w).

(** The handler of [POST /api/admin/employee]. *)
Definition post_employee (id : string) (name password : option string)
    (isAdmin : option bool) (ok : bool) (w : world) : response * world :=
  let admin := default false isAdmin in
  let m := set_employees <[id := Employee name password admin]> (mem w) in
  let st := store w in
  match values_append ok
          [JStr id; of_cell name; of_cell password;
           JStr (if admin then "true" else "false")]
          (sheet_Employees st) with
  | Some rows =>
      (success, World m (Sheets rows (sheet_Attendance st) (sheet_Leave st)))
  | None => (failure 500 "Failed to save employee", World m st)
  end.

(** The handler of [DELETE /api/admin/employee/:id]. *)
Definition delete_employee (id : string) (w : world) : response * world :=
  (success,
   World (Mirror (delete id (employees (mem w)))
                 (delete id (attendanceData (mem w)))
                 (delete id (leaveData (mem w))))
         (store w)).

End Server.

(** ** A reference platform *)

(** An executable platform: a JSON reader and writer, tokens that carry their
    payload, key and expiry, and a sheet that shows strings as they are.  It
    runs the server on concrete requests. *)

(** *** Reading JSON *)

Definition is_json_space (c : ascii) : bool :=
  let n := N_of_ascii c in
  ((n =? 32) || (n =? 9) || (n =? 10) || (n =? 13))%N.

Fixpoint skip_ws (s : string) : string :=
  match s with
  | String c rest => if is_json_space c then skip_ws rest else s
  | EmptyString => s
  end.

Definition decimal_digit (c : ascii) : option Z :=
  let n := Z.of_N (N_of_ascii c) in
  if (48 <=? n) && (n <=? 57) then Some (n - 48) else None.

(** The digits at the head of [s]: their value over [acc], how many they are,
    and what follows them. *)
Fixpoint read_digits (s : string) (acc : Z) (count : Z) : Z * Z * string :=
  match s with
  | String c rest =>
      match decimal_digit c with
      | Some d => read_digits rest (acc * 10 + d) (count + 1)
      | None => (acc, count, s)
      end
  | EmptyString => (acc, count, s)
  end.

(** A JSON number: [-? int frac? exp?], where [int] has no leading zero. *)
Definition read_number (s : string) : option (jsval * string) :=
  let '(neg, s1) :=
    match s with String "-" r => (true, r) | _ => (false, s) end in
  let '(i, ni, s2) :=
    match s1 with
    | String "0" r => (0, 1, r)
    | _ => read_digits s1 0 0
    end in
  if ni =? 0 then None else
  let frac :=
    match s2 with
    | String "." r =>
        let '(v, n, s3) := read_digits r i 0 in
        if n =? 0 then None else Some (v, n, s3)
    | _ => Some (i, 0, s2)
    end in
  match frac with
  | None => None
  | Some (m, nf, s3) =>
      let expo :=
        match s3 with
        | String "e" r | String "E" r =>
            let '(eneg, r1) :=
              match r with
              | String "-" r' => (true, r')
              | String "+" r' => (false, r')
              | _ => (false, r)
              end in
            let '(v, n, s4) := read_digits r1 0 0 in
            if n =? 0 then None
            else Some ((if eneg : bool then - v else v), s4)
        | _ => Some (0, s3)
        end in
      match expo with
      | None => None
      | Some (e, s4) => Some (JNum (if neg : bool then - m else m) (e - nf), s4)
      end
  end.

(** The UTF-8 bytes of a code point. *)
Definition utf8 (n : Z) : list ascii :=
  let byte (z : Z) := ascii_of_N (Z.to_N z) in
  if n <? 128 then [byte n]
  else if n <? 2048 then [byte (192 + n / 64); byte (128 + n mod 64)]
  else if n <? 65536 then
    [byte (224 + n / 4096); byte (128 + (n / 64) mod 64); byte (128 + n mod 64)]
  else
    [byte (240 + n / 262144); byte (128 + (n / 4096) mod 64);
     byte (128 + (n / 64) mod 64); byte (128 + n mod 64)].

Definition hex4 (a b c d : ascii) : option Z :=
  let hex (x : ascii) :=
    match digit_value x with
    | Some v => if v <? 16 then Some v else None
    | None => None
    end in
  match hex a, hex b, hex c, hex d with
  | Some u, Some v, Some w, Some x => Some (((u * 16 + v) * 16 + w) * 16 + x)
  | _, _, _, _ => None
  end.

(** The body of a string literal, after its opening quote: the bytes written
    as they are ([inl]) and the code units written as escapes ([inr]). *)
Fixpoint read_chars (s : string) : option (list (ascii + Z) * string) :=
  match s with
  | EmptyString => None
  | String c rest =>
      if Ascii.eqb c dquote then Some ([], rest)
      else if Ascii.eqb c backslash then
        match rest with
        | String "u" (String a (String b (String c' (String d rest')))) =>
            match hex4 a b c' d, read_chars rest' with
            | Some u, Some (l, rest'') => Some (inr u :: l, rest'')
            | _, _ => None
            end
        | String e rest' =>
            let unit :=
              if Ascii.eqb e dquote then Some 34
              else if Ascii.eqb e backslash then Some 92
              else if Ascii.eqb e "/" then Some 47
              else if Ascii.eqb e "b" then Some 8
              else if Ascii.eqb e "f" then Some 12
              else if Ascii.eqb e "n" then Some 10
              else if Ascii.eqb e "r" then Some 13
              else if Ascii.eqb e "t" then Some 9
              else None in
            match unit, read_chars rest' with
            | Some u, Some (l, rest'') => Some (inr u :: l, rest'')
            | _, _ => None
            end
        | EmptyString => None
        end
      else if (N_of_ascii c <? 32)%N then None
      else match read_chars rest with
           | Some (l, rest') => Some (inl c :: l, rest')
           | None => None
           end
  end.

(** The text of a string literal: escapes become UTF-8, and a high surrogate
    followed by a low one becomes the code point they encode. *)
Fixpoint text_of_chars (l : list (ascii + Z)) : string :=
  match l with
  | [] => EmptyString
  | inl c :: rest => String c (text_of_chars rest)
  | inr u :: rest =>
      let plain := (string_of_list_ascii (utf8 u) ++ text_of_chars rest)%string in
      match rest with
      | inr v :: rest' =>
          if (55296 <=? u) && (u <? 56320) && (56320 <=? v) && (v <? 57344)
          then (string_of_list_ascii
                  (utf8 (65536 + (u - 55296) * 1024 + (v - 56320)))
                ++ text_of_chars rest')%string
          else plain
      | _ => plain
      end
  end.

Definition read_string (s : string) : option (string * string) :=
  match read_chars s with
  | Some (l, rest) => Some (text_of_chars l, rest)
  | None => None
  end.

(** Defining a property: a key already there keeps its place. *)
Fixpoint assoc_set (k : string) (v : jsval) (fields : list (string * jsval))
    : list (string * jsval) :=
  match fields with
  | [] => [(k, v)]
  | (k', v') :: rest =>
      if String.eqb k k' then (k, v) :: rest else (k', v') :: assoc_set k v rest
  end.

Definition read_literal (word : string) (v : jsval) (s : string)
    : option (jsval * string) :=
  if String.prefix word s then Some (v, string_drop (String.length word) s)
  else None.

(** A JSON value at the head of [s]; [fuel] bounds the number of values and
    members read. *)
Fixpoint read_value (fuel : nat) (s : string) : option (jsval * string) :=
  match fuel with
  | O => None
  | S fuel' =>
      match skip_ws s with
      | String "{" rest =>
          match skip_ws rest with
          | String "}" rest' => Some (JObj [], rest')
          | _ => read_members fuel' rest []
          end
      | String "[" rest =>
          match skip_ws rest with
          | String "]" rest' => Some (JArr [], rest')
          | _ => read_elements fuel' rest []
          end
      | String "t" _ => read_literal "true" (JBool true) (skip_ws s)
      | String "f" _ => read_literal "false" (JBool false) (skip_ws s)
      | String "n" _ => read_literal "null" JNull (skip_ws s)
      | String c rest =>
          if Ascii.eqb c dquote
          then match read_string rest with
               | Some (t, rest') => Some (JStr t, rest')
               | None => None
               end
          else read_number (String c rest)
      | EmptyString => None
      end
  end
with read_elements (fuel : nat) (s : string) (acc : list jsval)
    : option (jsval * string) :=
  match fuel with
  | O => None
  | S fuel' =>
      match read_value fuel' s with
      | Some (v, rest) =>
          match skip_ws rest with
          | String "," rest' => read_elements fuel' rest' (acc ++ [v])
          | String "]" rest' => Some (JArr (acc ++ [v]), rest')
          | _ => None
          end
      | None => None
      end
  end
with read_members (fuel : nat) (s : string) (acc : list (string * jsval))
    : option (jsval * string) :=
  match fuel with
  | O => None
  | S fuel' =>
      match skip_ws s with
      | String c rest =>
          match (if Ascii.eqb c dquote then read_string rest else None) with
          | Some (k, rest1) =>
              match skip_ws rest1 with
              | String ":" rest2 =>
                  match read_value fuel' rest2 with
                  | Some (v, rest3) =>
                      match skip_ws rest3 with
                      | String "," rest4 => read_members fuel' rest4 (assoc_set k v acc)
                      | String "}" rest4 => Some (JObj (assoc_set k v acc), rest4)
                      | _ => None
                      end
                  | None => None
                  end
              | _ => None
              end
          | None => None
          end
      | EmptyString => None
      end
  end.

(** [JSON.parse]: one value, with white space around it and nothing else. *)
Definition json_parse (s : string) : option jsval :=
  match read_value (S (String.length s)) s with
  | Some (v, rest) =>
      match skip_ws rest with
      | EmptyString => Some v
      | _ => None
      end
  | None => None
  end.

(** *** Writing JSON *)

Definition hex_digit (n : Z) : ascii :=
  ascii_of_N (Z.to_N (if n <? 10 then 48 + n else 87 + n)).

Fixpoint quote_chars (s : string) : string :=
  match s with
  | EmptyString => EmptyString
  | String c rest =>
      let n := Z.of_N (N_of_ascii c) in
      let escaped :=
        if n =? 34 then String backslash (String dquote "")
        else if n =? 92 then String backslash (String backslash "")
        else if n =? 8 then String backslash "b"
        else if n =? 9 then String backslash "t"
        else if n =? 10 then String backslash "n"
        else if n =? 12 then String backslash "f"
        else if n =? 13 then String backslash "r"
        else if n <? 32
             then String backslash
                    (String "u" (String "0" (String "0"
                       (String (hex_digit (n / 16))
                          (String (hex_digit (n mod 16)) "")))))
        else String c "" in
      (escaped ++ quote_chars rest)%string
  end.

Definition quote (s : string) : string :=
  String dquote (quote_chars s ++ String dquote "").

Fixpoint join (sep : string) (l : list string) : string :=
  match l with
  | [] => EmptyString
  | [x] => x
  | x :: rest => (x ++ sep ++ join sep rest)%string
  end.

(** A number, in the decimal form the model keeps it. *)
Definition number_text (m e : Z) : string :=
  if e =? 0 then pretty m else (pretty m ++ "e" ++ pretty e)%string.

(** The JSON text of a value; [None] where [JSON.stringify] gives
    [undefined]. *)
Fixpoint json_text (v : jsval) : option string :=
  match v with
  | JUndefined => None
  | JNull => Some "null"
  | JBool b => Some (if b then "true" else "false")
  | JNum m e => Some (number_text m e)
  | JStr s => Some (quote s)
  | JArr xs =>
      Some ("[" ++ join "," (List.map (fun x => default "null" (json_text x)) xs)
            ++ "]")%string
  | JObj fields =>
      Some ("{" ++ join ","
              (List.flat_map
                 (fun kv => match json_text (snd kv) with
                            | Some t => [(quote (fst kv) ++ ":" ++ t)%string]
                            | None => []
                            end) fields)
            ++ "}")%string
  end.

Definition json_stringify (v : jsval) : jsval := of_cell (json_text v).

(** *** Session tokens *)

Fixpoint bits_of_pos (p : positive) : string :=
  match p with
  | xH => EmptyString
  | xO q => String "0" (bits_of_pos q)
  | xI q => String "1" (bits_of_pos q)
  end.

Fixpoint pos_of_bits (s : string) : option positive :=
  match s with
  | EmptyString => Some xH
  | String c rest =>
      if Ascii.eqb c "0" then xO <$> pos_of_bits rest
      else if Ascii.eqb c "1" then xI <$> pos_of_bits rest
      else None
  end.

(** A token spells out its payload, the key it was signed with and the second
    it expires at. *)
Definition token_sign (p : claims) (key : string) (ttl now : Z) : string :=
  String "j" (bits_of_pos (encode (userId p, isAdmin p, key, now / 1000 + ttl))).

Definition token_verify (token key : string) (now : Z) : option claims :=
  match token with
  | String "j" bits =>
      match pos_of_bits bits ≫= decode with
      | Some (u, a, key', expiry) =>
          if String.eqb key key' && (now / 1000 <? expiry)
          then Some (Claims u a) else None
      | None => None
      end
  | _ => None
  end.

(** *** Dates and cells *)

(** The en-US date of a time stamp, in UTC: month/day/year. *)
Definition locale_date (t : Z) : string :=
  let z := t / 86400000 + 719468 in
  let era := z / 146097 in
  let doe := z - era * 146097 in
  let yoe := (doe - doe / 1460 + doe / 36524 - doe / 146096) / 365 in
  let doy := doe - (365 * yoe + yoe / 4 - yoe / 100) in
  let mp := (5 * doy + 2) / 153 in
  let d := doy - (153 * mp + 2) / 5 + 1 in
  let m := if mp <? 10 then mp + 3 else mp - 9 in
  let y := yoe + era * 400 + (if m <=? 2 then 1 else 0) in
  (pretty m ++ "/" ++ pretty d ++ "/" ++ pretty y)%string.

(** A sheet that shows a string as it is, a boolean in capitals, a number in
    digits and nothing for the rest. *)
Definition sheet_text (v : jsval) : string :=
  match v with
  | JStr s => s
  | JBool b => if b then "TRUE" else "FALSE"
  | JNum m e => number_text m e
  | _ => EmptyString
  end.

#[export] Instance reference_platform : Platform := {|
  JSON_parse := json_parse;
  JSON_stringify := json_stringify;
  jwt_sign := token_sign;
  jwt_verify := token_verify;
  toLocaleDateString := locale_date;
  cell_text := sheet_text
|}.


(** *** What the loaders keep of a row *)

(** [row[0] && row[1]]: the rows the employee loader keeps. *)
Definition employee_row_kept (r : row) : bool :=
  cell_truthy (r !! 0%nat) && cell_truthy (r !! 1%nat).

(** The employee the loader builds from a row. *)
Definition employee_of_row (r : row) : employee :=
  Employee (r !! 1%nat) (r !! 2%nat) (is_true_cell (r !! 3%nat)).



(** [pat] occurs in [s]. *)
Fixpoint occurs (pat s : string) : bool :=
  String.prefix pat s
  || match s with
     | String _ rest => occurs pat rest
     | EmptyString => false
     end.


(** *** Sample requests and sheets *)

Definition no_sheets : sheets := Sheets [] [] [].

Definition day_one_in : attendance_body :=
  AttendanceBody "E1" "2024-01-01" (JStr "09:02") JUndefined
    (JObj [("checkIn", JObj [("lat", JNum 1297 (-2)); ("lng", JNum 7759 (-2))])])
    (JBool true) (JBool false).



Definition staff : world :=
  World (Mirror {[ "E1" := Employee (Some "Asha") (Some "s3cret") false;
                   "A1" := Employee (Some "Ravi") (Some "r00t") true ]} ∅ ∅)
        no_sheets.

(** The Authorization header that carries the token of a login answer. *)
Definition bearer (r : response) : option string :=
  (fun token => "Bearer " ++ token)%string <$> token_of r.

Definition attendance_sheet : list row :=
  [["E1"; "2024-01-01"; "09:02"; "17:31"; "{bad"; "true"; "false"];
   ["E2"; "2024-01-01"; "08:55"; "17:05"; "{}"; "false"; "false"]].




Definition located_row : row :=
  ["E2"; "2024-01-01"; "09:10"; "17:40"; dq "{'checkIn': {'lat': 12.97}}"; "true"].

Definition pending_leave : leave :=
  Leave (Int 1700000000000) (JStr "Sick") (JStr "2024-01-02") (JStr "2024-01-03")
        (JStr "flu") (JStr "Pending") (JStr "11/14/2023") (JStr "E1").

Definition twin_leave : leave :=
  Leave (Int 1700000000000) (JStr "Casual") (JStr "2024-03-01") (JStr "2024-03-01")
        (JStr "trip") (JStr "Pending") (JStr "11/14/2023") (JStr "E1").


Definition twin_leaves : world :=
  World (Mirror ∅ ∅ {[ "E1" := [pending_leave; twin_leave] ]}) no_sheets.

(** * Properties *)

(** ** The reference platform *)

Example json_parse_location :
  json_parse (dq "{'checkIn': {'lat': 12.97, 'lng': -77.5e0}, 'checkOut': null}")
  = Some (JObj [("checkIn", JObj [("lat", JNum 1297 (-2)); ("lng", JNum (-775) (-1))]);
                ("checkOut", JNull)]).
Proof. vm_compute. reflexivity. Qed.

Example json_parse_rejects :
  json_parse "{bad" = None /\ json_parse "{'a':1}" = None /\
  json_parse "[1,]" = None /\ json_parse "01" = None /\ json_parse "" = None /\
  json_parse "{} x" = None.
Proof. vm_compute. repeat split. Qed.

Example json_parse_accepts :
  json_parse (dq " [true, false, null, 'a\né', 0, -1e3] ")
  = Some (JArr [JBool true; JBool false; JNull;
                JStr (String "a" (String "010" (String "195" (String "169" ""))));
                JNum 0 0; JNum (-1) 3]).
Proof. vm_compute. reflexivity. Qed.

Example json_stringify_location :
  json_stringify (JObj [("checkIn", JObj [("lat", JNum 1297 (-2))]);
                        ("note", JUndefined); ("tags", JArr [JStr (dq "a'b"); JUndefined])])
  = JStr (dq "{'checkIn':{'lat':1297e-2},'tags':['a\'b',null]}").
Proof. vm_compute. reflexivity. Qed.

Example locale_date_samples :
  locale_date 0 = "1/1/1970" /\ locale_date 1700000000000 = "11/14/2023" /\
  locale_date 1709164800000 = "2/29/2024".
Proof. vm_compute. repeat split. Qed.

Lemma pos_of_bits_of_pos p : pos_of_bits (bits_of_pos p) = Some p.
Proof. induction p as [q IH|q IH|]; simpl; rewrite ?IH; reflexivity. Qed.

Lemma token_verify_sign p k ttl t t' :
  t' / 1000 < t / 1000 + ttl -> token_verify (token_sign p k ttl t) k t' = Some p.
Proof.
  intros Hlt. unfold token_verify, token_sign.
  rewrite pos_of_bits_of_pos. simpl. rewrite decode_encode.
  rewrite String.eqb_refl. simpl.
  destruct (Z.ltb_spec (t' / 1000) (t / 1000 + ttl)) as [_|Hge]; [|lia].
  destruct p; reflexivity.
Qed.

Lemma token_verify_expired p k ttl t t' :
  t / 1000 + ttl <= t' / 1000 -> token_verify (token_sign p k ttl t) k t' = None.
Proof.
  intros Hle. unfold token_verify, token_sign.
  rewrite pos_of_bits_of_pos. simpl. rewrite decode_encode.
  rewrite String.eqb_refl. simpl.
  destruct (Z.ltb_spec (t' / 1000) (t / 1000 + ttl)) as [Hlt|_]; [lia|].
  reflexivity.
Qed.

#[export] Instance reference_platform_laws : PlatformLaws reference_platform.
Proof.
  split.
  - reflexivity.
  - apply token_verify_sign.
  - apply token_verify_expired.
Qed.

(** ** The mirrors as finite maps *)

Section MirrorFacts.

Implicit Types (a : gmap string (gmap string jsval)) (d : gmap string (list leave)).

Lemma set_day_lookup empId date record a :
  set_day empId date record a !! empId
  = Some (<[date := record]> (default ∅ (a !! empId))).
Proof. unfold set_day. apply lookup_insert_eq. Qed.





End MirrorFacts.

(** ** The write-through handlers and the gate *)

Section Properties.

Context `{HP : Platform} `{!PlatformLaws HP}.
Variable JWT_SECRET : string.







Lemma verifyAdmin_cases authorization now :
  verifyAdmin JWT_SECRET authorization now =
  match bearer_token authorization with
  | None | Some EmptyString => Rejected (refusal 401 "Access denied")
  | Some token =>
      match jwt_verify token JWT_SECRET now with
      | None => Rejected (refusal 401 "Invalid token")
      | Some decoded =>
          if isAdmin decoded then Next decoded
          else Rejected (refusal 403 "Admin access required")
      end
  end.
Proof.
  unfold verifyAdmin.
  destruct (bearer_token authorization) as [[|c token]|]; simpl; try done.
  destruct (jwt_verify _ _ _) as [[u a]|]; [|done]. by destruct a.
Qed.



(** C10.  The admin delete answers success for every identifier; it leaves
    the process as it is exactly when the identifier is in none of the three
    mirrors; deleting an identifier a second time answers success again and
    leaves the process as the first delete left it. *)
Theorem delete_employee_idempotent (id : string) (w : world) :
  (delete_employee id w).1 = success
  /\ ((delete_employee id w).2 = w <->
      employees (mem w) !! id = None
      /\ attendanceData (mem w) !! id = None
      /\ leaveData (mem w) !! id = None)
  /\ delete_employee id (delete_employee id w).2
     = (success, (delete_employee id w).2).
Proof.
  split; [done|]. split.
  - destruct w as [[e a d] st]. unfold delete_employee. simpl. split.
    + intros [= He Ha Hd]. rewrite <- He at 1. rewrite <- Ha at 1. rewrite <- Hd at 1.
      by rewrite !lookup_delete_eq.
    + intros (He & Ha & Hd). by rewrite !delete_id.
  - unfold delete_employee. simpl. by rewrite !delete_delete_eq.
Qed.

(** C7.  A login with an identifier of the employee mirror and the password
    stored for it succeeds: the answer carries a token which, verified with
    the server's secret within the hour, decodes to that identifier and to
    the admin flag stored for the employee. *)
Theorem login_valid
    (id : string) (password : option string) (e : employee) (now now' : Z)
    (w : world) :
  employees (mem w) !! id = Some e ->
  emp_password e = password ->
  now' / 1000 < now / 1000 + 3600 ->
  exists token,
    login JWT_SECRET id password now w
    = (Response 200 (BJson (JObj [("success", JBool true);
                                  ("name", of_cell (emp_name e));
                                  ("token", JStr token)])), w)
    /\ token_of (login JWT_SECRET id password now w).1 = Some token
    /\ jwt_verify token JWT_SECRET now' = Some (Claims id (emp_isAdmin e)).
Proof.
  intros He Hpw Hnow. unfold login. rewrite He.
  destruct (decide (emp_password e = password)) as [_|Hne]; [|done].
  eexists. split; [reflexivity|]. split; [reflexivity|].
  by apply jwt_verify_sign.
Qed.


(** The token of a login is refused by the library once its hour is over. *)
Lemma login_token_expires
    (id : string) (e : employee) (now now' : Z) (w : world) :
  employees (mem w) !! id = Some e ->
  now / 1000 + 3600 <= now' / 1000 ->
  exists token,
    token_of (login JWT_SECRET id (emp_password e) now w).1 = Some token
    /\ jwt_verify token JWT_SECRET now' = None.
Proof.
  intros He Hlate. unfold login. rewrite He.
  destruct (decide (emp_password e = emp_password e)) as [_|Hne]; [|done].
  eexists. split; [reflexivity|]. by apply jwt_verify_expired.
Qed.

End Properties.

(** ** Cells, rows and iteration *)

Section StoreFacts.

Implicit Types (r : row) (rows : list row).




(** A cell write changes no row but the one it names. *)
Lemma write_cell_other_row col n text rows i :
  i ≠ pred n -> (i < length rows)%nat ->
  write_cell col n text rows !! i = rows !! i.
Proof.
  intros Hne Hlt. unfold write_cell.
  rewrite list_lookup_alter_ne by done. by rewrite lookup_app_l.
Qed.


End StoreFacts.

Section IterationFacts.

Context {S A : Type}.
Implicit Types (f : A -> Eff S unit) (l : list A).

(** Iterating over [l1 ++ l2] iterates over [l1], then over [l2] unless
    [l1] threw. *)
Lemma forEach_app f l1 l2 s :
  forEach f (l1 ++ l2) s
  = match forEach f l1 s with
    | (Some _, s') => forEach f l2 s'
    | (None, s') => (None, s')
    end.
Proof.
  revert s. induction l1 as [|x l1 IH]; intros s; simpl; [done|].
  unfold eff_bind. destruct (f x s) as [[[]|] s']; [apply IH|done].
Qed.

(** An element that throws at once ends the iteration where it stands. *)
Lemma forEach_stops f l1 x l2 s :
  (forall s', f x s' = (None, s')) ->
  forEach f (l1 ++ x :: l2) s = (None, (forEach f l1 s).2).
Proof.
  intros Hx. rewrite forEach_app.
  destruct (forEach f l1 s) as [[[]|] s']; simpl; [|done].
  unfold eff_bind. by rewrite Hx.
Qed.

(** An index that [findIndex] returns lies within the list. *)
Lemma findIndex_lt (p : A -> bool) l i :
  findIndex p l = Some i -> (i < length l)%nat.
Proof.
  revert i. induction l as [|x l IH]; intros i; simpl; [done|].
  destruct (p x); [intros [= <-]; lia|].
  destruct (findIndex p l) as [j|]; simpl; [|done].
  intros [= <-]. specialize (IH j eq_refl). lia.
Qed.

End IterationFacts.

(** ** Loading, leave identifiers and the status update *)

Section LoadProperties.

Context `{HP : Platform} `{!PlatformLaws HP}.

(** A location that does not parse throws before the row changes anything. *)
Lemma attendance_row_malformed r m :
  JSON_parse (location_text (r !! 4%nat)) = None ->
  attendance_row r m = (None, m).
Proof.
  intros Hbad. unfold attendance_row, eff_bind, or_throw. by rewrite Hbad.
Qed.

(** A missing or empty location cell is read as the empty object, and the
    row is merged with two empty locations. *)
Lemma attendance_row_blank_location r m :
  cell_truthy (r !! 4%nat) = false ->
  attendance_row r m
  = (Some tt,
     set_attendanceData
       (set_day (prop_key (r !! 0%nat)) (prop_key (r !! 1%nat))
          (JObj [("checkIn", of_cell (r !! 2%nat));
                 ("checkOut", of_cell (r !! 3%nat));
                 ("checkInLocation", JObj []);
                 ("checkOutLocation", JObj []);
                 ("isLate", JBool (is_true_cell (r !! 5%nat)));
                 ("isHalfDay", JBool (is_true_cell (r !! 6%nat)));
                 ("date", of_cell (r !! 1%nat))]))
       (set_attendanceData (ensure_days (prop_key (r !! 0%nat))) m)).
Proof.
  intros Hblank. unfold attendance_row, location_text.
  rewrite Hblank, JSON_parse_empty_object. reflexivity.
Qed.

(** A location that parses to [null] throws when its members are read, after
    the entry of the employee has been created. *)
Lemma attendance_row_null_location r m :
  JSON_parse (location_text (r !! 4%nat)) = Some JNull ->
  attendance_row r m
  = (None, set_attendanceData (ensure_days (prop_key (r !! 0%nat))) m).
Proof.
  intros Hnull. unfold attendance_row, eff_bind, or_throw. by rewrite Hnull.
Qed.

Lemma loadAttendance_run ok e rows l m :
  loadAttendanceFromSheets ok (Sheets e rows l) m
  = (Some tt, if ok then (forEach attendance_row rows m).2 else m).
Proof.
  unfold loadAttendanceFromSheets, values_get. simpl. destruct ok.
  - unfold try_catch, eff_bind, or_throw. simpl.
    assert (Hrows : default [] (sheet_values rows) = rows) by by destruct rows.
    rewrite Hrows. by destruct (forEach attendance_row rows m) as [[[]|] m'].
  - reflexivity.
Qed.

(** C4, as the code has it.  A row whose location cell holds text that
    [JSON.parse] rejects ends the load where it stands: the mirror is the one
    the rows before it give, that row and the rows after it are not merged,
    and the loader itself completes, the error being caught. *)
Theorem load_attendance_stops_at_malformed
    (ok : bool) (e l : list row) (before after : list row) (r : row) (m : mirror) :
  JSON_parse (location_text (r !! 4%nat)) = None ->
  loadAttendanceFromSheets ok (Sheets e (before ++ r :: after) l) m
  = loadAttendanceFromSheets ok (Sheets e before l) m
  /\ (loadAttendanceFromSheets ok (Sheets e (before ++ r :: after) l) m).1 = Some tt.
Proof.
  intros Hbad. rewrite !loadAttendance_run. split; [|done].
  destruct ok; [|done].
  rewrite (forEach_stops attendance_row before r after m); [done|].
  intros m'. by apply attendance_row_malformed.
Qed.




(** The row the update looks up is not the row it writes: the cell it names
    lies one row further down. *)
Lemma patch_status_keeps_matched_row empId leaveId status ok_get ok_update st i :
  findIndex (row_matches empId leaveId) (sheet_Leave st) = Some i ->
  sheet_Leave (patch_status empId leaveId status ok_get ok_update st).2 !! i
  = sheet_Leave st !! i.
Proof.
  intros Hi. unfold patch_status, values_get.
  destruct ok_get; [|done].
  remember (sheet_Leave st) as rows eqn:Hrows.
  destruct rows as [|r0 rows0]; [done|].
  cbn [sheet_values]. rewrite Hi.
  destruct ok_update; cbn [snd sheet_Leave]; [|by rewrite <- Hrows].
  apply write_cell_other_row; [simpl; lia|].
  by apply (findIndex_lt (row_matches empId leaveId)).
Qed.



(** The identifier [POST /api/leave] assigns is the reading of the clock. *)
Lemma new_leave_id b now today : leave_id (new_leave b now today) = Int now.
Proof. reflexivity. Qed.



End LoadProperties.

(** ** The server at work on the reference platform *)




(** C4 fails as stated: the first row has a location that does not parse; it
    is not merged with an empty location, and the row after it is not merged
    at all. *)
Lemma malformed_location_drops_the_rest :
  let st := Sheets [] attendance_sheet [] in
  let m := (loadAttendanceFromSheets true st empty_mirror).2 in
  JSON_parse "{bad" = None
  /\ attendanceData m !! "E1" = None
  /\ attendanceData m !! "E2" = None.
Proof. vm_compute. repeat split. Qed.

(** A sheet whose second row does not parse loads as its first row alone. *)
Lemma load_attendance_stops_at_malformed_witness :
  let good := ["E2"; "2024-01-01"; "08:55"; "17:05"; "{}"; "false"; "false"] in
  let bad := ["E1"; "2024-01-01"; "09:02"; "17:31"; "{bad"; "true"; "false"] in
  JSON_parse (location_text (bad !! 4%nat)) = None
  /\ loadAttendanceFromSheets true (Sheets [] ([good] ++ bad :: [good]) []) empty_mirror
     = loadAttendanceFromSheets true (Sheets [] [good] []) empty_mirror.
Proof.
  split; [reflexivity|].
  apply (load_attendance_stops_at_malformed true [] []
           [["E2"; "2024-01-01"; "08:55"; "17:05"; "{}"; "false"; "false"]]
           [["E2"; "2024-01-01"; "08:55"; "17:05"; "{}"; "false"; "false"]]
           ["E1"; "2024-01-01"; "09:02"; "17:31"; "{bad"; "true"; "false"]
           empty_mirror).
  reflexivity.
Defined.

(** A login with the stored password, checked half an hour later. *)
Lemma login_valid_witness :
  employees (mem staff) !! "E1" = Some (Employee (Some "Asha") (Some "s3cret") false)
  /\ emp_password (Employee (Some "Asha") (Some "s3cret") false) = Some "s3cret"
  /\ 1800000 / 1000 < 0 / 1000 + 3600
  /\ exists token,
       token_of (login "key" "E1" (Some "s3cret") 0 staff).1 = Some token
       /\ jwt_verify token "key" 1800000 = Some (Claims "E1" false).
Proof.
  split; [reflexivity|]. split; [reflexivity|]. split; [reflexivity|].
  destruct (login_valid "key" "E1" (Some "s3cret")
              (Employee (Some "Asha") (Some "s3cret") false) 0 1800000 staff
              eq_refl eq_refl eq_refl) as (token & _ & Htoken & Hverify).
  exists token. split; [exact Htoken | exact Hverify].
Defined.



(** A sheet with a full location and an empty one loads with both rows. *)
Example load_attendance_sample :
  let st := Sheets []
    [["E1"; "2024-01-01"; "09:02"; "17:31"; dq "{'checkIn': {'lat': 12.97}}"; "true"];
     ["E2"; "2024-01-01"; "08:55"]] [] in
  let m := (loadAttendanceFromSheets true st empty_mirror).2 in
  attendanceData m !! "E1"
  = Some {[ "2024-01-01" :=
              JObj [("checkIn", JStr "09:02"); ("checkOut", JStr "17:31");
                    ("checkInLocation", JObj [("lat", JNum 1297 (-2))]);
                    ("checkOutLocation", JObj []);
                    ("isLate", JBool true); ("isHalfDay", JBool false);
                    ("date", JStr "2024-01-01")] ]}
  /\ attendanceData m !! "E2"
     = Some {[ "2024-01-01" :=
                 JObj [("checkIn", JStr "08:55"); ("checkOut", JUndefined);
                       ("checkInLocation", JObj []);
                       ("checkOutLocation", JObj []);
                       ("isLate", JBool false); ("isHalfDay", JBool false);
                       ("date", JStr "2024-01-01")] ]}.
Proof. vm_compute. split; reflexivity. Qed.

(** An admin logs in and deletes an employee; the same request with the
    token of a plain employee, with no header, or an hour later is refused. *)
Example admin_session :
  let admin := (login "key" "A1" (Some "r00t") 0 staff).1 in
  let plain := (login "key" "E1" (Some "s3cret") 0 staff).1 in
  let gone := (delete_employee "E1" staff).2 in
  guarded "key" (bearer admin) 60000 (delete_employee "E1") staff = (success, gone)
  /\ (login "key" "E1" (Some "s3cret") 60000 gone).1
     = failure 401 "Invalid credentials"
  /\ guarded "key" (bearer plain) 60000 (delete_employee "E1") staff
     = (refusal 403 "Admin access required", staff)
  /\ guarded "key" None 60000 (delete_employee "E1") staff
     = (refusal 401 "Access denied", staff)
  /\ guarded "key" (bearer admin) 3600000 (delete_employee "E1") staff
     = (refusal 401 "Invalid token", staff).
Proof. vm_compute. repeat split. Qed.

(** * Further properties of the loaders and the handlers *)

(** ** Loading the employees *)

Section EmployeeLoader.

Context `{HP : Platform}.

Lemma forEach_snoc {S A} (f : A -> Eff S unit) (l : list A) (x : A) (s : S) :
  forEach f (l ++ [x]) s
  = match forEach f l s with
    | (Some _, s') => f x s'
    | (None, s') => (None, s')
    end.
Proof.
  rewrite forEach_app. destruct (forEach f l s) as [[[]|] s']; [|done].
  simpl. unfold eff_bind, eff_ret. by destruct (f x s') as [[[]|] s''].
Qed.

Lemma employee_row_run r m :
  employee_row r m
  = (Some tt,
     if employee_row_kept r
     then set_employees <[prop_key (r !! 0%nat) := employee_of_row r]> m
     else m).
Proof.
  unfold employee_row, employee_row_kept.
  by destruct (cell_truthy (r !! 0%nat) && cell_truthy (r !! 1%nat)).
Qed.

(** The employee loader gets through every row; what it holds for a key is
    what the last kept row of that key says. *)
Lemma forEach_employee_row rows m :
  (forEach employee_row rows m).1 = Some tt
  /\ attendanceData (forEach employee_row rows m).2 = attendanceData m
  /\ leaveData (forEach employee_row rows m).2 = leaveData m
  /\ forall k,
       employees (forEach employee_row rows m).2 !! k
       = match last (filter (fun r => employee_row_kept r = true
                                      /\ prop_key (r !! 0%nat) = k) rows) with
         | Some r => Some (employee_of_row r)
         | None => employees m !! k
         end.
Proof.
  induction rows as [|r rows IH] using rev_ind; [done|].
  rewrite forEach_snoc.
  destruct (forEach employee_row rows m) as [[[]|] m1]; simpl in IH;
    [|by destruct IH].
  destruct IH as (_ & Ha & Hd & Hk). rewrite employee_row_run. simpl.
  split; [done|].
  split; [by destruct (employee_row_kept r)|].
  split; [by destruct (employee_row_kept r)|].
  intros k. rewrite filter_app, filter_cons, filter_nil.
  destruct (decide (employee_row_kept r = true /\ prop_key (r !! 0%nat) = k))
    as [[Hkept <-]|Hno].
  - rewrite last_snoc, Hkept. simpl. apply lookup_insert_eq.
  - rewrite app_nil_r, <- Hk.
    destruct (employee_row_kept r) eqn:Hkept; [|done].
    simpl. apply lookup_insert_ne. intros Heq. by apply Hno.
Qed.

Lemma loadEmployees_run ok st m :
  loadEmployeesFromSheets ok st m
  = (Some tt, if ok then (forEach employee_row (sheet_Employees st) m).2 else m).
Proof.
  unfold loadEmployeesFromSheets, values_get. destruct ok; [|done].
  unfold try_catch, eff_bind, or_throw. simpl.
  assert (Hrows : default [] (sheet_values (sheet_Employees st)) = sheet_Employees st)
    by by destruct (sheet_Employees st).
  rewrite Hrows.
  by destruct (forEach employee_row (sheet_Employees st) m) as [[[]|] m'].
Qed.


(** X2.  On a sheet that shows strings as written, an employee posted with a
    non-empty identifier and name and with a password is read back from the
    store as the mirror holds it, whatever rows the sheet had before. *)
Theorem employee_reload_round_trip
    (id name password : string) (isAdmin : option bool) (w : world) (m0 : mirror) :
  (forall s, cell_text (JStr s) = s) ->
  id <> "" ->
  name <> "" ->
  let w' := (post_employee id (Some name) (Some password) isAdmin true w).2 in
  employees (mem w') !! id
  = Some (Employee (Some name) (Some password) (default false isAdmin))
  /\ employees (loadEmployeesFromSheets true (store w') m0).2 !! id
     = employees (mem w') !! id.
Proof.
  intros Htext Hid Hname w'. subst w'. unfold post_employee. simpl.
  rewrite lookup_insert_eq. split; [done|].
  rewrite loadEmployees_run. simpl. rewrite !Htext.
  destruct (forEach_employee_row
              (sheet_Employees (store w)
               ++ [[id; name; password;
                    if default false isAdmin then "true" else "false"]]) m0)
    as (_ & _ & _ & Hk).
  rewrite Hk, filter_app, filter_cons, filter_nil.
  assert (Hkept : employee_row_kept
                    [id; name; password;
                     if default false isAdmin then "true" else "false"] = true).
  { unfold employee_row_kept, cell_truthy. simpl.
    apply String.eqb_neq in Hid. apply String.eqb_neq in Hname.
    by rewrite Hid, Hname. }
  rewrite decide_True by done. rewrite last_snoc.
  unfold employee_of_row. simpl. by destruct (default false isAdmin).
Qed.

End EmployeeLoader.

(** ** Loading attendance and leave; the loads at startup *)

Section LoaderFrames.

Context `{HP : Platform}.






















End LoaderFrames.

(** ** What a reload gives *)

Section Reloads.

Context `{HP : Platform}.






(** X6.  The record a reload writes for a day is never a record that
    [POST /api/attendance] writes: the loader keeps the two locations under
    [checkInLocation] and [checkOutLocation], the handler keeps one
    [location]. *)
Theorem reloaded_record_differs
    (r : row) (m m' : mirror) (b : attendance_body) :
  attendance_row r m = (Some tt, m') ->
  attendanceData m' !! prop_key (r !! 0%nat) ≫= (.!! prop_key (r !! 1%nat))
  <> Some (attendance_record b).
Proof.
  unfold attendance_row, eff_bind, or_throw.
  destruct (JSON_parse _) as [location|]; simpl; [|done].
  destruct (get_member location "checkIn") as [ci|]; simpl; [|done].
  destruct (get_member location "checkOut") as [co|]; simpl; [|done].
  intros [= <-]. simpl. rewrite set_day_lookup. simpl.
  rewrite lookup_insert_eq. unfold attendance_record. intros [=].
Qed.

End Reloads.

(** ** The write handlers and the sessions *)

Section Handlers.

Context `{HP : Platform} `{!PlatformLaws HP}.
Variable JWT_SECRET : string.




(** X10.  After [POST /api/admin/employee], also when the store refused the
    row, a login with the identifier and the posted password succeeds with a
    token for the identifier and the posted admin flag ([false] when none was
    posted), and a login with any other password fails. *)
Theorem posted_employee_can_log_in
    (id : string) (name password : option string) (isAdmin : option bool)
    (ok : bool) (now now' : Z) (w : world) :
  now' / 1000 < now / 1000 + 3600 ->
  let w' := (post_employee id name password isAdmin ok w).2 in
  exists token,
    login JWT_SECRET id password now w'
    = (Response 200 (BJson (JObj [("success", JBool true);
                                  ("name", of_cell name);
                                  ("token", JStr token)])), w')
    /\ jwt_verify token JWT_SECRET now' = Some (Claims id (default false isAdmin))
    /\ forall other,
         other <> password ->
         login JWT_SECRET id other now w' = (failure 401 "Invalid credentials", w').
Proof.
  intros Hnow w'.
  assert (He : employees (mem w') !! id
               = Some (Employee name password (default false isAdmin))).
  { subst w'. unfold post_employee. destruct ok; simpl; apply lookup_insert_eq. }
  unfold login. rewrite He. simpl.
  rewrite decide_True by done.
  eexists. split; [reflexivity|]. split; [by apply jwt_verify_sign|].
  intros other Hother. by rewrite decide_False.
Qed.

Lemma bearer_token_prefixed t : bearer_token (Some ("Bearer " ++ t)%string) = Some t.
Proof. by destruct t. Qed.

Lemma replace_first_absent pat rep s :
  occurs pat s = false -> replace_first pat rep s = s.
Proof.
  induction s as [|c s IH]; simpl; intros Hno.
  - apply orb_false_iff in Hno as [Hp _]. by rewrite Hp.
  - apply orb_false_iff in Hno as [Hp Hrest]. rewrite Hp. by rewrite IH.
Qed.

(** X11.  The token of an admin's login opens the admin routes for its whole
    hour in whatever state the process is: the guard never looks at the
    mirrors, so the token still passes after the employee was deleted. *)
Theorem session_outlives_employee
    (id : string) (e : employee) (now now' : Z) (token : string)
    (handler : world -> response * world) (w w' : world) :
  employees (mem w) !! id = Some e ->
  emp_isAdmin e = true ->
  token_of (login JWT_SECRET id (emp_password e) now w).1 = Some token ->
  token <> "" ->
  now' / 1000 < now / 1000 + 3600 ->
  guarded JWT_SECRET (Some ("Bearer " ++ token)%string) now' handler w' = handler w'
  /\ guarded JWT_SECRET (Some ("Bearer " ++ token)%string) now' handler
       (delete_employee id w).2
     = handler (delete_employee id w).2.
Proof.
  intros He Hadmin Htoken Hne Hnow.
  unfold login in Htoken. rewrite He in Htoken.
  rewrite decide_True in Htoken by done. simpl in Htoken.
  injection Htoken as <-.
  assert (Hg : forall w0,
             guarded JWT_SECRET
               (Some ("Bearer "
                      ++ jwt_sign (Claims id (emp_isAdmin e)) JWT_SECRET 3600 now)%string)
               now' handler w0 = handler w0).
  { intros w0. unfold guarded. rewrite verifyAdmin_cases, bearer_token_prefixed.
    destruct (jwt_sign _ _ _ _) as [|c t] eqn:Hsign; [done|].
    rewrite <- Hsign, jwt_verify_sign by done. simpl. by rewrite Hadmin. }
  split; apply Hg.
Qed.

(** X12.  The guard does not ask for the word Bearer: a header that holds
    the token alone is treated as the same token with the prefix. *)
Theorem guard_accepts_bare_token (t : string) (now : Z) :
  occurs "Bearer " t = false ->
  verifyAdmin JWT_SECRET (Some t) now
  = verifyAdmin JWT_SECRET (Some ("Bearer " ++ t)%string) now.
Proof.
  intros Hno. unfold verifyAdmin. rewrite bearer_token_prefixed.
  unfold bearer_token. simpl. by rewrite (replace_first_absent _ _ _ Hno).
Qed.

End Handlers.

(** ** The status update *)

Section StatusUpdate.

Context `{HP : Platform}.


(** [findIndex] returns the first element that matches. *)
Lemma findIndex_first {A} (p : A -> bool) (l : list A) (i : nat) :
  findIndex p l = Some i ->
  (exists x, l !! i = Some x /\ p x = true)
  /\ forall j y, (j < i)%nat -> l !! j = Some y -> p y = false.
Proof.
  revert i. induction l as [|x l IH]; intros i; simpl; [done|].
  destruct (p x) eqn:Hx.
  - intros [= <-]. split; [by exists x|]. intros j y Hj. lia.
  - destruct (findIndex p l) as [i'|]; simpl; [|done].
    intros [= <-]. destruct (IH i' eq_refl) as [Hfound Hfirst].
    split; [exact Hfound|].
    intros [|j] y Hj; simpl.
    + by intros [= <-].
    + apply Hfirst. lia.
Qed.







(** X17.  A leave that shares its identifier with an earlier leave of the
    same list is out of reach: no status update, for whatever employee,
    identifier and status, changes it. *)
Theorem shadowed_leave_never_updated
    (empId : string) (l : list leave) (i j : nat) (li lj : leave)
    (empId' leaveId : string) (status : jsval) (ok_get ok_update : bool) (w : world) :
  leaveData (mem w) !! empId = Some l ->
  l !! i = Some li ->
  l !! j = Some lj ->
  (i < j)%nat ->
  leave_id lj = leave_id li ->
  leaveData (mem (put_leave_status empId' leaveId status ok_get ok_update w).2)
    !! empId ≫= (.!! j)
  = Some lj.
Proof.
  intros Hl Hli Hlj Hij Hid.
  unfold put_leave_status.
  destruct (leaveData (mem w) !! empId') as [l'|] eqn:Hl';
    [|by simpl; rewrite Hl].
  destruct (findIndex (has_id leaveId) l') as [i'|] eqn:Hi';
    [|by simpl; rewrite Hl].
  destruct (patch_status _ _ _ _ _ _) as [r st]. simpl.
  destruct (decide (empId' = empId)) as [->|Hne].
  - rewrite lookup_insert_eq. simpl.
    rewrite Hl in Hl'. injection Hl' as <-.
    destruct (findIndex_first _ _ _ Hi') as [(x & Hx & Hpx) Hfirst].
    destruct (decide (i' = j)) as [->|Hne].
    + rewrite Hlj in Hx. injection Hx as <-.
      assert (Hpi : has_id leaveId li = true).
      { unfold has_id in *. by rewrite <- Hid. }
      by rewrite (Hfirst i li Hij Hli) in Hpi.
    + by rewrite list_lookup_alter_ne.
  - rewrite lookup_insert_ne by done. by rewrite Hl.
Qed.

End StatusUpdate.

(** ** The further properties on the reference platform *)

Lemma employee_reload_round_trip_witness :
  (forall s, cell_text (JStr s) = s)
  /\ "E9" <> ""
  /\ "Mira" <> ""
  /\ let w' := (post_employee "E9" (Some "Mira") (Some "pw9") (Some true) true staff).2 in
     employees (mem w') !! "E9" = Some (Employee (Some "Mira") (Some "pw9") true)
     /\ employees (loadEmployeesFromSheets true (store w') empty_mirror).2 !! "E9"
        = employees (mem w') !! "E9".
Proof.
  split; [intros s; reflexivity|]. split; [discriminate|]. split; [discriminate|].
  exact (employee_reload_round_trip "E9" "Mira" "pw9" (Some true) staff empty_mirror
           (fun s => eq_refl) ltac:(discriminate) ltac:(discriminate)).
Defined.



Lemma reloaded_record_differs_witness :
  let m' := (attendance_row located_row empty_mirror).2 in
  attendance_row located_row empty_mirror = (Some tt, m')
  /\ attendanceData m' !! "E2" ≫= (.!! "2024-01-01")
     <> Some (attendance_record day_one_in).
Proof.
  split; [reflexivity|].
  exact (reloaded_record_differs located_row empty_mirror
           (attendance_row located_row empty_mirror).2 day_one_in eq_refl).
Defined.

Lemma posted_employee_can_log_in_witness :
  1000 / 1000 < 0 / 1000 + 3600
  /\ let w' := (post_employee "E9" (Some "Mira") (Some "pw9") None false staff).2 in
     exists token,
       login "key" "E9" (Some "pw9") 0 w'
       = (Response 200 (BJson (JObj [("success", JBool true);
                                     ("name", JStr "Mira");
                                     ("token", JStr token)])), w')
       /\ jwt_verify token "key" 1000 = Some (Claims "E9" false)
       /\ forall other,
            other <> Some "pw9" ->
            login "key" "E9" other 0 w' = (failure 401 "Invalid credentials", w').
Proof.
  split; [reflexivity|].
  exact (posted_employee_can_log_in "key" "E9" (Some "Mira") (Some "pw9") None
           false 0 1000 staff eq_refl).
Defined.

Lemma session_outlives_employee_witness :
  let ravi := Employee (Some "Ravi") (Some "r00t") true in
  let token := jwt_sign (Claims "A1" true) "key" 3600 0 in
  let gone := (delete_employee "A1" staff).2 in
  employees (mem staff) !! "A1" = Some ravi
  /\ emp_isAdmin ravi = true
  /\ token_of (login "key" "A1" (emp_password ravi) 0 staff).1 = Some token
  /\ token <> ""
  /\ 60000 / 1000 < 0 / 1000 + 3600
  /\ employees (mem gone) !! "A1" = None
  /\ guarded "key" (Some ("Bearer " ++ token)%string) 60000 (delete_employee "E1") gone
     = delete_employee "E1" gone.
Proof.
  split; [reflexivity|]. split; [reflexivity|]. split; [reflexivity|].
  assert (Hne : jwt_sign (Claims "A1" true) "key" 3600 0 <> "").
  { intros Heq. vm_compute in Heq. discriminate Heq. }
  split; [exact Hne|]. split; [reflexivity|]. split; [reflexivity|].
  exact (proj2 (session_outlives_employee "key" "A1"
                  (Employee (Some "Ravi") (Some "r00t") true) 0 60000
                  (jwt_sign (Claims "A1" true) "key" 3600 0)
                  (delete_employee "E1") staff staff
                  eq_refl eq_refl eq_refl Hne eq_refl)).
Defined.

Lemma guard_accepts_bare_token_witness :
  let token := jwt_sign (Claims "A1" true) "key" 3600 0 in
  occurs "Bearer " token = false
  /\ verifyAdmin "key" (Some token) 60000
     = verifyAdmin "key" (Some ("Bearer " ++ token)%string) 60000
  /\ verifyAdmin "key" (Some token) 60000 = Next (Claims "A1" true).
Proof.
  split; [reflexivity|].
  split; [|reflexivity].
  exact (guard_accepts_bare_token "key"
           (jwt_sign (Claims "A1" true) "key" 3600 0) 60000 eq_refl).
Defined.





Lemma shadowed_leave_never_updated_witness :
  leaveData (mem twin_leaves) !! "E1" = Some [pending_leave; twin_leave]
  /\ [pending_leave; twin_leave] !! 0%nat = Some pending_leave
  /\ [pending_leave; twin_leave] !! 1%nat = Some twin_leave
  /\ (0 < 1)%nat
  /\ leave_id twin_leave = leave_id pending_leave
  /\ leaveData
       (mem (put_leave_status "E1" "1700000000000" (JStr "Approved") true true
               twin_leaves).2) !! "E1" ≫= (.!! 1%nat)
     = Some twin_leave.
Proof.
  split; [reflexivity|]. split; [reflexivity|]. split; [reflexivity|].
  split; [lia|]. split; [reflexivity|].
  exact (shadowed_leave_never_updated "E1" [pending_leave; twin_leave] 0 1
           pending_leave twin_leave "E1" "1700000000000" (JStr "Approved")
           true true twin_leaves eq_refl eq_refl eq_refl ltac:(lia) eq_refl).
Defined.

(** ** What the store keeps behind the mirror *)

Section BehindTheMirror.

Context `{HP : Platform}.




End BehindTheMirror.


